(** * WanderSphere: the root component [App] and its types

    A shallow embedding of the application root (the [App] component) and of
    [types.ts].  React state cells ([useState]) become the fields of one
    record, [AppState]; the handlers become computations in a small monad
    that threads this record, the log of calls made to the external
    [AuthService] collaborator, and a possible thrown error.

    Conventions of the model:
    - JavaScript strings are [string]s of 8-bit characters and
      [toLowerCase] folds the letters [A]..[Z] only, so the text predicates
      describe ASCII text;
    - [number] fields that the code compares are integers ([Z]);
    - an [async] handler is run to completion: the listener of the session
      may fire between two handlers, never inside one. *)

From Stdlib Require Import String Ascii List ZArith Bool Lia.
Import ListNotations.

Open Scope string_scope.
Open Scope Z_scope.

(** ** types.ts *)

Inductive DestinationCategory : Type :=
| Beach | Mountain | City | Cultural | Nature | Luxury | History.

(** The string a category value is at run time. *)
Definition category_string (c : DestinationCategory) : string :=
  match c with
  | Beach => "Beach"
  | Mountain => "Mountain"
  | City => "City"
  | Cultural => "Cultural"
  | Nature => "Nature"
  | Luxury => "Luxury"
  | History => "History"
  end.

Record TimelineEntry : Type := mkTimelineEntry {
  day : Z;
  entry_description : string
}.

Record Destination : Type := mkDestination {
  id : string;
  name : string;
  location : string;
  image : string;
  description : string;
  rating : Z * Z;               (* a decimal, as numerator and denominator *)
  price : Z;
  category : DestinationCategory;
  reviews : Z;
  bestTime : string;
  timeline : option (list TimelineEntry)
}.

Record User : Type := mkUser {
  uid : string;
  user_name : string;           (* the field [name] of a user *)
  username : string;
  email : string;
  wishlist : list string;
  visitedPlaces : list string;
  createdAt : option Z          (* a [Date], as its time value *)
}.

Inductive ViewState : Type :=
| HOME | EXPLORE | DETAILS | CHATBOT | LOGIN | REGISTER | DASHBOARD.

(** ** String operations of the JavaScript runtime *)

Module Js.

Definition toLowerCaseChar (c : ascii) : ascii :=
  let n := nat_of_ascii c in
  if (Nat.leb 65 n && Nat.leb n 90)%bool then ascii_of_nat (n + 32) else c.

Fixpoint toLowerCase (s : string) : string :=
  match s with
  | EmptyString => EmptyString
  | String c s' => String (toLowerCaseChar c) (toLowerCase s')
  end.

(** [startsWith s t]: [t] is read at the start of [s]. *)
Fixpoint startsWith (s t : string) {struct t} : bool :=
  match t with
  | EmptyString => true
  | String c t' =>
      match s with
      | EmptyString => false
      | String d s' => (Ascii.eqb c d && startsWith s' t')%bool
      end
  end.

(** [includes s t] is [s.includes(t)]: [t] occurs at some position of [s]. *)
Fixpoint includes (s t : string) : bool :=
  (startsWith s t ||
   match s with
   | EmptyString => false
   | String _ s' => includes s' t
   end)%bool.

(** [array_includes xs x] is [xs.includes(x)] on an array of strings. *)
Definition array_includes (xs : list string) (x : string) : bool :=
  existsb (String.eqb x) xs.

End Js.

(** ** The destination filter *)

Definition CATEGORIES : list string :=
  ["All"; "Beach"; "Mountain"; "City"; "Cultural"; "Nature"; "Luxury";
   "Budget Friendly"].

Definition matchesCategory (activeCategory : string) (d : Destination) : bool :=
  ((activeCategory =? "All")%string
   || (category_string (category d) =? activeCategory)%string
   || ((activeCategory =? "Budget Friendly")%string && (price d <=? 1500)))%bool.

Definition matchesSearch (searchTerm : string) (d : Destination) : bool :=
  (Js.includes (Js.toLowerCase (name d)) (Js.toLowerCase searchTerm)
   || Js.includes (Js.toLowerCase (location d)) (Js.toLowerCase searchTerm))%bool.

(** The list [MOCK_DESTINATIONS] comes from [services/mockData]; the filter
    is stated over any list standing for it. *)
Definition filteredDestinations (MOCK_DESTINATIONS : list Destination)
    (searchTerm activeCategory : string) : list Destination :=
  filter (fun d => (matchesCategory activeCategory d && matchesSearch searchTerm d)%bool)
         MOCK_DESTINATIONS.

(** ** What the filter is specified to select *)

(** [Substring t s]: [t] occurs inside [s]. *)
Definition Substring (t s : string) : Prop :=
  exists before after : string, s = before ++ t ++ after.

Definition CategoryAccepts (c : string) (d : Destination) : Prop :=
  c = "All" \/ category_string (category d) = c \/
  (c = "Budget Friendly" /\ price d <= 1500).

Definition TermAccepts (t : string) (d : Destination) : Prop :=
  Substring (Js.toLowerCase t) (Js.toLowerCase (name d)) \/
  Substring (Js.toLowerCase t) (Js.toLowerCase (location d)).

(** [Selects P D R]: [R] is [D] with exactly the elements that satisfy [P]
    kept, in the order of [D]. *)
Inductive Selects {A : Type} (P : A -> Prop) : list A -> list A -> Prop :=
| Selects_nil : Selects P [] []
| Selects_keep : forall x D R, P x -> Selects P D R -> Selects P (x :: D) (x :: R)
| Selects_drop : forall x D R, ~ P x -> Selects P D R -> Selects P (x :: D) R.

(** A destination with the fields of the worked example and nothing else. *)
Definition example_destination (i n l : string) (p : Z)
    (c : DestinationCategory) : Destination :=
  mkDestination i n l "" "" (0, 1) p c 0 "" None.

Definition bali : Destination :=
  example_destination "1" "Bali Retreat" "Indonesia" 800 Beach.

Definition swiss_alps : Destination :=
  example_destination "2" "Swiss Alps" "Switzerland" 3000 Mountain.

Definition with_category (d : Destination) (c : DestinationCategory) : Destination :=
  mkDestination (id d) (name d) (location d) (image d) (description d)
                (rating d) (price d) c (reviews d) (bestTime d) (timeline d).

(** ** State of the application root *)

(** The three kinds of toast the root passes to its [Notification] child. *)
Inductive NotificationType : Type := info | success | error.

Record NotificationState : Type := mkNotification {
  message : string;
  type : NotificationType;
  isVisible : bool
}.

(** One field per [useState] cell of [App]. *)
Record AppState : Type := mkAppState {
  view : ViewState;
  selectedDestination : option Destination;
  searchTerm : string;
  activeCategory : string;
  searchDate : string;
  searchGuests : string;
  user : option User;
  authLoading : bool;
  notification : NotificationState
}.

Definition initialState : AppState :=
  mkAppState HOME None "" "All" "" "" None true (mkNotification "" info false).

(** ** The external collaborator *)

Definition JsError : Type := string.

(** The awaited operations of [AuthService]. *)
Inductive AuthCall : Type :=
| CallToggleVisited (uid id : string) (currentlyVisited : bool)
| CallToggleWishlist (uid id : string) (currentlyWishlisted : bool)
| CallLogout.

(** The collaborator answers a call, knowing the calls made before it:
    [None] when the promise resolves, [Some e] when it rejects with [e]. *)
Definition AuthServiceT : Type := list AuthCall -> AuthCall -> option JsError.

(** What a handler can observe and change: the state cells, the calls made to
    the collaborator so far (oldest first) and the lines written with
    [console.error]. *)
Record World : Type := mkWorld {
  app : AppState;
  calls : list AuthCall;
  console : list (string * JsError)
}.

Definition initialWorld : World := mkWorld initialState [] [].

(** ** Handlers as computations *)

Inductive Completion (A : Type) : Type :=
| Normal (a : A)
| Throw (e : JsError).

Arguments Normal {A} a.
Arguments Throw {A} e.

Definition Handler (A : Type) : Type := World -> Completion A * World.

Definition ret {A : Type} (a : A) : Handler A := fun w => (Normal a, w).

Definition bind {A B : Type} (m : Handler A) (k : A -> Handler B) : Handler B :=
  fun w =>
    match m w with
    | (Normal a, w') => k a w'
    | (Throw e, w') => (Throw e, w')
    end.

Definition try_catch {A : Type} (body : Handler A) (handler : JsError -> Handler A)
  : Handler A :=
  fun w =>
    match body w with
    | (Normal a, w') => (Normal a, w')
    | (Throw e, w') => handler e w'
    end.

Declare Scope handler_scope.
Delimit Scope handler_scope with handler.
Notation "x <- m ;; k" := (bind m (fun x => k))
  (at level 61, m at next level, right associativity) : handler_scope.
Notation "m ;; k" := (bind m (fun _ => k))
  (at level 61, right associativity) : handler_scope.

Definition modify (f : AppState -> AppState) : Handler unit :=
  fun w => (Normal tt, mkWorld (f (app w)) (calls w) (console w)).

Definition read {A : Type} (f : AppState -> A) : Handler A :=
  fun w => (Normal (f (app w)), w).

Definition console_error (label : string) (e : JsError) : Handler unit :=
  fun w => (Normal tt, mkWorld (app w) (calls w) (console w ++ [(label, e)])).

(** A state with one cell replaced. *)
Definition withView (x : ViewState) (s : AppState) : AppState :=
  mkAppState x (selectedDestination s) (searchTerm s) (activeCategory s)
    (searchDate s) (searchGuests s) (user s) (authLoading s) (notification s).

Definition withSelectedDestination (x : option Destination) (s : AppState) : AppState :=
  mkAppState (view s) x (searchTerm s) (activeCategory s) (searchDate s)
    (searchGuests s) (user s) (authLoading s) (notification s).

Definition withSearchTerm (x : string) (s : AppState) : AppState :=
  mkAppState (view s) (selectedDestination s) x (activeCategory s)
    (searchDate s) (searchGuests s) (user s) (authLoading s) (notification s).

Definition withActiveCategory (x : string) (s : AppState) : AppState :=
  mkAppState (view s) (selectedDestination s) (searchTerm s) x
    (searchDate s) (searchGuests s) (user s) (authLoading s)
    (notification s).

Definition withSearchDate (x : string) (s : AppState) : AppState :=
  mkAppState (view s) (selectedDestination s) (searchTerm s)
    (activeCategory s) x (searchGuests s) (user s) (authLoading s)
    (notification s).

Definition withSearchGuests (x : string) (s : AppState) : AppState :=
  mkAppState (view s) (selectedDestination s) (searchTerm s)
    (activeCategory s) (searchDate s) x (user s) (authLoading s)
    (notification s).

Definition withUser (x : option User) (s : AppState) : AppState :=
  mkAppState (view s) (selectedDestination s) (searchTerm s)
    (activeCategory s) (searchDate s) (searchGuests s) x (authLoading s)
    (notification s).

Definition withAuthLoading (x : bool) (s : AppState) : AppState :=
  mkAppState (view s) (selectedDestination s) (searchTerm s)
    (activeCategory s) (searchDate s) (searchGuests s) (user s) x
    (notification s).

Definition withNotification (x : NotificationState) (s : AppState) : AppState :=
  mkAppState (view s) (selectedDestination s) (searchTerm s)
    (activeCategory s) (searchDate s) (searchGuests s) (user s)
    (authLoading s) x.

(** The state setters returned by [useState]. *)
Definition setView (x : ViewState) : Handler unit := modify (withView x).

Definition setSelectedDestination (x : option Destination) : Handler unit :=
  modify (withSelectedDestination x).

Definition setSearchTerm (x : string) : Handler unit :=
  modify (withSearchTerm x).

Definition setActiveCategory (x : string) : Handler unit :=
  modify (withActiveCategory x).

Definition setSearchDate (x : string) : Handler unit :=
  modify (withSearchDate x).

Definition setSearchGuests (x : string) : Handler unit :=
  modify (withSearchGuests x).

Definition setUser (x : option User) : Handler unit := modify (withUser x).

Definition setAuthLoading (x : bool) : Handler unit :=
  modify (withAuthLoading x).

(** [setNotification] takes an updater, as its functional form does. *)
Definition setNotification (f : NotificationState -> NotificationState)
  : Handler unit :=
  modify (fun s => withNotification (f (notification s)) s).

(** What [renderContent] hands to React. *)
Inductive Screen : Type :=
| LoginScreen
| RegisterScreen
| ChatbotScreen
| DestinationDetailsScreen (destination : Destination)
    (isVisited isWishlisted : bool) (u : option User)
    (initialDate initialGuests : string)
| ProtectedDashboard (u : option User) (loading : bool)
| ExploreScreen (term category : string) (cards : list Destination)
| HomeScreen (term date guests : string) (signUpOffered : bool)
| NothingRendered.

(** What can happen to the root: the session listener firing, a callback
    handed to a child being called, or React rendering the component. *)
Inductive Event : Type :=
| SessionChanged (currentUser : option User)
| DestinationClick (dest : Destination)
| ToggleVisited (id : string)
| ToggleWishlist (id : string)
| Logout
| AuthSuccess (authenticatedUser : User)
| HomeSearch
| Navigate (v : ViewState)
| TypeSearchTerm (t : string)
| TypeSearchDate (x : string)
| TypeSearchGuests (x : string)
| CategoryButton (position : nat)
| ClearSearch
| ResetFilters
| BookingSuccess
| Notify (msg : string) (kind : NotificationType)
| CloseNotification
| Render.

Section App.

Variable AuthService : AuthServiceT.
Variable MOCK_DESTINATIONS : list Destination.

Local Open Scope handler_scope.

(** [await AuthService.op(...)]: the call is made, and the handler goes on
    when the promise resolves or throws what it rejects with. *)
Definition await (c : AuthCall) : Handler unit :=
  fun w =>
    let w' := mkWorld (app w) (calls w ++ [c]) (console w) in
    match AuthService (calls w) c with
    | None => (Normal tt, w')
    | Some e => (Throw e, w')
    end.

Definition showNotification (msg : string) (kind : NotificationType)
  : Handler unit :=
  setNotification (fun _ => mkNotification msg kind true).

Definition closeNotification : Handler unit :=
  setNotification (fun prev => mkNotification (message prev) (type prev) false).

(** The callback given to [AuthService.subscribeToAuth]. *)
Definition onAuthChanged (currentUser : option User) : Handler unit :=
  setUser currentUser ;; setAuthLoading false.

Definition handleDestinationClick (dest : Destination) : Handler unit :=
  setSelectedDestination (Some dest) ;; setView DETAILS.

Definition toggleVisited (id : string) : Handler unit :=
  cached <- read user ;;
  match cached with
  | None => setView LOGIN
  | Some u =>
      let isVisited := Js.array_includes (visitedPlaces u) id in
      try_catch
        (await (CallToggleVisited (uid u) id isVisited) ;;
         if negb isVisited
         then showNotification "Added to your Travel Log!" success
         else ret tt)
        (fun e =>
           console_error "Failed to update visited places" e ;;
           showNotification "Failed to update status" error)
  end.

Definition toggleWishlist (id : string) : Handler unit :=
  cached <- read user ;;
  match cached with
  | None => setView LOGIN
  | Some u =>
      let isWishlisted := Js.array_includes (wishlist u) id in
      try_catch
        (await (CallToggleWishlist (uid u) id isWishlisted) ;;
         if negb isWishlisted
         then showNotification "Added to Wishlist" success
         else showNotification "Removed from Wishlist" info)
        (fun e =>
           console_error "Failed to update wishlist" e ;;
           showNotification "Failed to update wishlist" error)
  end.

Definition handleLogout : Handler unit :=
  await CallLogout ;;
  setUser None ;;
  setView LOGIN ;;
  showNotification "Logged out successfully" info.

Definition handleAuthSuccess (authenticatedUser : User) : Handler unit :=
  setUser (Some authenticatedUser) ;;
  setView DASHBOARD ;;
  showNotification ("Welcome back, " ++ user_name authenticatedUser ++ "!") success.

Definition handleHomeSearch : Handler unit := setView EXPLORE.

Definition onBookingSuccess : Handler unit :=
  setView DASHBOARD ;;
  showNotification "Adventure Booked! Packing your bags..." success.

(** [user?.field.includes(id) || false] *)
Definition userHas (field : User -> list string) (u : option User) (id : string)
  : bool :=
  match u with
  | Some x => Js.array_includes (field x) id
  | None => false
  end.

Definition renderContent : Handler Screen :=
  s <- read (fun s => s) ;;
  match view s with
  | LOGIN => ret LoginScreen
  | REGISTER => ret RegisterScreen
  | CHATBOT => ret ChatbotScreen
  | DETAILS =>
      match selectedDestination s with
      | Some d =>
          ret (DestinationDetailsScreen d
                 (userHas visitedPlaces (user s) (id d))
                 (userHas wishlist (user s) (id d))
                 (user s) (searchDate s) (searchGuests s))
      | None => setView EXPLORE ;; ret NothingRendered
      end
  | DASHBOARD => ret (ProtectedDashboard (user s) (authLoading s))
  | EXPLORE =>
      ret (ExploreScreen (searchTerm s) (activeCategory s)
             (filteredDestinations MOCK_DESTINATIONS (searchTerm s)
                (activeCategory s)))
  | HOME =>
      ret (HomeScreen (searchTerm s) (searchDate s) (searchGuests s)
             (match user s with None => true | Some _ => false end))
  end.

(** The handler each event runs.  A category button exists for each element
    of [CATEGORIES] and for nothing else. *)
Definition dispatch (e : Event) : Handler unit :=
  match e with
  | SessionChanged u => onAuthChanged u
  | DestinationClick d => handleDestinationClick d
  | ToggleVisited i => toggleVisited i
  | ToggleWishlist i => toggleWishlist i
  | Logout => handleLogout
  | AuthSuccess u => handleAuthSuccess u
  | HomeSearch => handleHomeSearch
  | Navigate v => setView v
  | TypeSearchTerm t => setSearchTerm t
  | TypeSearchDate x => setSearchDate x
  | TypeSearchGuests x => setSearchGuests x
  | CategoryButton n =>
      match nth_error CATEGORIES n with
      | Some cat => setActiveCategory cat
      | None => ret tt
      end
  | ClearSearch => setSearchTerm ""
  | ResetFilters => setSearchTerm "" ;; setActiveCategory "All"
  | BookingSuccess => onBookingSuccess
  | Notify m k => showNotification m k
  | CloseNotification => closeNotification
  | Render => _ <- renderContent ;; ret tt
  end.

(** The events are handled one after the other; an error that leaves a
    handler is a rejected promise nobody awaits, and the root goes on. *)
Fixpoint run (events : list Event) (w : World) : World :=
  match events with
  | [] => w
  | e :: rest => run rest (snd (dispatch e w))
  end.

End App.

(** ** Inputs of the examples *)

Definition alice : User :=
  mkUser "u1" "Alice" "alice" "alice@example.org" ["1"] [] None.

Definition signedIn (u : User) : World :=
  mkWorld (mkAppState HOME None "" "All" "" "" (Some u) false
             (mkNotification "" info false)) [] [].

Definition alwaysResolves : AuthServiceT := fun _ _ => None.

Definition alwaysRejects : AuthServiceT := fun _ _ => Some "network error".

Definition bob : User :=
  mkUser "u2" "Bob" "bob" "bob@example.org" [] ["1"] None.

Definition colosseum : Destination :=
  example_destination "3" "Colosseum" "Rome" 900 History.

(** ** Classes of events *)

(** The events whose handler may put a user in the [user] cell. *)
Definition signsIn (e : Event) : bool :=
  match e with
  | SessionChanged (Some _) | AuthSuccess _ => true
  | _ => false
  end.

(** The events whose handler calls [setUser]. *)
Definition writesUser (e : Event) : bool :=
  match e with
  | SessionChanged _ | AuthSuccess _ | Logout => true
  | _ => false
  end.

(** The events of the two booking inputs of the home screen. *)
Definition editsBooking (e : Event) : bool :=
  match e with
  | TypeSearchDate _ | TypeSearchGuests _ => true
  | _ => false
  end.

(** The events that ask for a toast of kind [error]. *)
Definition asksErrorToast (e : Event) : bool :=
  match e with
  | Notify _ error => true
  | _ => false
  end.

(** ** Facts about the string operations *)

Section StringFacts.

Lemma startsWith_app (t rest : string) : Js.startsWith (t ++ rest) t = true.
Proof.
  induction t as [|c t IH]; simpl.
  - reflexivity.
  - rewrite Ascii.eqb_refl. exact IH.
Qed.

Lemma startsWith_inv (s t : string) :
  Js.startsWith s t = true -> exists rest, s = t ++ rest.
Proof.
  revert s. induction t as [|c t IH]; intros s H.
  - exists s. reflexivity.
  - destruct s as [|d s]; simpl in H; [discriminate|].
    apply andb_true_iff in H. destruct H as [Hc Hs].
    apply Ascii.eqb_eq in Hc. subst d.
    destruct (IH s Hs) as [rest ->]. exists rest. reflexivity.
Qed.

Lemma includes_unfold (s t : string) :
  Js.includes s t =
  (Js.startsWith s t ||
   match s with EmptyString => false | String _ s' => Js.includes s' t end)%bool.
Proof. destruct s; reflexivity. Qed.

Lemma includes_Substring (s t : string) :
  Js.includes s t = true <-> Substring t s.
Proof.
  split.
  - induction s as [|d s IH]; rewrite includes_unfold; intros H;
      apply orb_true_iff in H; destruct H as [H|H].
    + destruct (startsWith_inv _ _ H) as [rest E]. exists "", rest. exact E.
    + discriminate.
    + destruct (startsWith_inv _ _ H) as [rest E]. exists "", rest. exact E.
    + destruct (IH H) as (b & a & E). exists (String d b), a.
      simpl. rewrite E. reflexivity.
  - intros (b & a & E). subst s.
    induction b as [|d b IH]; rewrite includes_unfold.
    + simpl. rewrite startsWith_app. reflexivity.
    + change (String d b ++ t ++ a) with (String d (b ++ t ++ a)).
      cbv beta iota. rewrite IH. apply orb_true_r.
Qed.

Lemma includes_empty (s : string) : Js.includes s "" = true.
Proof. destruct s; reflexivity. Qed.

Lemma category_string_not_budget (c : DestinationCategory) :
  (category_string c =? "Budget Friendly")%string = false.
Proof. destruct c; reflexivity. Qed.

End StringFacts.

(** ** Facts about the filter *)

Section FilterFacts.

Lemma matchesCategory_iff (c : string) (d : Destination) :
  matchesCategory c d = true <-> CategoryAccepts c d.
Proof.
  unfold matchesCategory, CategoryAccepts.
  rewrite !orb_true_iff, andb_true_iff, !String.eqb_eq, Z.leb_le.
  tauto.
Qed.

Lemma matchesSearch_iff (t : string) (d : Destination) :
  matchesSearch t d = true <-> TermAccepts t d.
Proof.
  unfold matchesSearch, TermAccepts.
  rewrite orb_true_iff, !includes_Substring. tauto.
Qed.

Lemma matchesSearch_empty (d : Destination) : matchesSearch "" d = true.
Proof. unfold matchesSearch. simpl. rewrite includes_empty. reflexivity. Qed.

Lemma filter_Selects {A : Type} (f : A -> bool) (P : A -> Prop) :
  (forall x, f x = true <-> P x) ->
  forall D, Selects P D (filter f D).
Proof.
  intros Hf. induction D as [|x D IH]; simpl.
  - constructor.
  - destruct (f x) eqn:E.
    + apply Selects_keep; [apply Hf; exact E | exact IH].
    + apply Selects_drop; [| exact IH].
      intros HP. apply Hf in HP. congruence.
Qed.

(** [Selects] determines the result: there is one such sub-sequence. *)
Lemma Selects_functional {A : Type} (P : A -> Prop) (D R1 R2 : list A) :
  Selects P D R1 -> Selects P D R2 -> R1 = R2.
Proof.
  intros H1. revert R2.
  induction H1 as [|x D R HP _ IH|x D R HP _ IH]; intros R2 H2;
    inversion H2; subst; try contradiction.
  - reflexivity.
  - f_equal. apply IH. assumption.
  - apply IH. assumption.
Qed.

Lemma filter_twice {A : Type} (f : A -> bool) (D : list A) :
  filter f (filter f D) = filter f D.
Proof.
  induction D as [|x D IH]; simpl.
  - reflexivity.
  - destruct (f x) eqn:E; simpl; [rewrite E, IH | rewrite IH]; reflexivity.
Qed.

Lemma filter_all {A : Type} (f : A -> bool) (D : list A) :
  (forall x, f x = true) -> filter f D = D.
Proof.
  intros Hf. induction D as [|x D IH]; simpl.
  - reflexivity.
  - rewrite Hf, IH. reflexivity.
Qed.

End FilterFacts.

(** C1: for every list standing for the static destination list, every term
    and every active category, the filter returns the destinations accepted
    both by the category rule (category "All", or equal category, or "Budget
    Friendly" with price at most 1500) and by the text rule (the lowercased
    term occurs in the lowercased name or location), kept in the order of the
    list; and the empty term is accepted by the text rule of every
    destination. *)
Theorem filteredDestinations_selects :
  forall (D : list Destination) (t c : string),
    Selects (fun d => CategoryAccepts c d /\ TermAccepts t d) D
            (filteredDestinations D t c)
    /\ forall d : Destination, TermAccepts "" d.
Proof.
  intros D t c. split.
  - apply filter_Selects. intros d.
    rewrite andb_true_iff, matchesCategory_iff, matchesSearch_iff. tauto.
  - intros d. apply matchesSearch_iff, matchesSearch_empty.
Qed.

(** C4: with category "Budget Friendly" and the empty term the filter keeps
    exactly the destinations of price at most 1500, whatever category the
    destination itself carries; on the list [bali; swiss_alps] the result is
    [bali] alone. *)
Theorem budget_friendly_by_price :
  (forall D : list Destination,
      Selects (fun d => price d <= 1500) D
              (filteredDestinations D "" "Budget Friendly"))
  /\ (forall (d : Destination) (c' : DestinationCategory),
         filteredDestinations [with_category d c'] "" "Budget Friendly"
         = map (fun x => with_category x c')
               (filteredDestinations [d] "" "Budget Friendly"))
  /\ filteredDestinations [bali; swiss_alps] "" "Budget Friendly" = [bali].
Proof.
  assert (E : forall d, (matchesCategory "Budget Friendly" d
                         && matchesSearch "" d)%bool = (price d <=? 1500)).
  { intros d. rewrite matchesSearch_empty, andb_true_r.
    unfold matchesCategory. rewrite category_string_not_budget. reflexivity. }
  split; [|split].
  - intros D. apply filter_Selects. intros d. rewrite E. apply Z.leb_le.
  - intros d c'. unfold filteredDestinations. simpl filter.
    rewrite !E. simpl price. destruct (price d <=? 1500); reflexivity.
  - reflexivity.
Qed.

(** C5: filtering is idempotent: filtering the result of a filter by the same
    term and category gives that result again. *)
Theorem filteredDestinations_idempotent :
  forall (D : list Destination) (t c : string),
    filteredDestinations (filteredDestinations D t c) t c
    = filteredDestinations D t c.
Proof. intros D t c. apply filter_twice. Qed.

(** C6: category "All" with the empty term returns the list it is given. *)
Theorem filteredDestinations_all_empty :
  forall D : list Destination, filteredDestinations D "" "All" = D.
Proof.
  intros D. apply filter_all. intros d.
  rewrite matchesSearch_empty. reflexivity.
Qed.

(** ** Worked examples of the filter *)

Example lowercase_example : Js.toLowerCase "Bali Retreat" = "bali retreat".
Proof. reflexivity. Qed.

Example term_bali_lower :
  filteredDestinations [bali; swiss_alps] "bali" "All" = [bali].
Proof. reflexivity. Qed.

Example term_bali_upper :
  filteredDestinations [bali; swiss_alps] "BALI" "All" = [bali].
Proof. reflexivity. Qed.

Example category_mountain :
  filteredDestinations [bali; swiss_alps] "" "Mountain" = [swiss_alps].
Proof. reflexivity. Qed.

Example location_is_searched :
  filteredDestinations [bali; swiss_alps] "zerland" "All" = [swiss_alps].
Proof. reflexivity. Qed.

(** ** Facts about the handlers *)

(** Unfolds a handler down to a case analysis on what it reads. *)
Ltac unfold_handler :=
  unfold toggleVisited, toggleWishlist, handleLogout, handleAuthSuccess,
    handleDestinationClick, handleHomeSearch, onBookingSuccess, onAuthChanged,
    renderContent, closeNotification, showNotification, setNotification,
    setView, setSelectedDestination, setSearchTerm, setActiveCategory,
    setSearchDate, setSearchGuests, setUser, setAuthLoading,
    console_error, await, try_catch, bind, ret, read, modify.

Section HandlerFacts.

Variable AuthService : AuthServiceT.
Variable MOCK_DESTINATIONS : list Destination.

Lemma array_includes_In (xs : list string) (x : string) :
  Js.array_includes xs x = true <-> In x xs.
Proof.
  unfold Js.array_includes. rewrite existsb_exists. split.
  - intros (y & Hy & E). apply String.eqb_eq in E. subst y. exact Hy.
  - intros H. exists x. split; [exact H | apply String.eqb_refl].
Qed.

Lemma array_includes_not_In (xs : list string) (x : string) :
  Js.array_includes xs x = false <-> ~ In x xs.
Proof.
  rewrite <- array_includes_In. destruct (Js.array_includes xs x); split;
    congruence.
Qed.

(** The toggles complete normally whatever the collaborator answers. *)
Lemma toggleVisited_returns (i : string) (w : World) :
  fst (toggleVisited AuthService i w) = Normal tt.
Proof.
  unfold_handler. destruct (user (app w)) as [u|]; [|reflexivity].
  destruct (AuthService _ _); [reflexivity|].
  destruct (negb _); reflexivity.
Qed.

Lemma toggleWishlist_returns (i : string) (w : World) :
  fst (toggleWishlist AuthService i w) = Normal tt.
Proof.
  unfold_handler. destruct (user (app w)) as [u|]; [|reflexivity].
  destruct (AuthService _ _); [reflexivity|].
  destruct (negb _); reflexivity.
Qed.

(** A rejected toggle is logged and shown as an error toast; the cached user
    and every other cell stay as they were. *)
Lemma toggleVisited_rejected (i : string) (w : World) (u : User) (e : JsError) :
  user (app w) = Some u ->
  AuthService (calls w)
    (CallToggleVisited (uid u) i (Js.array_includes (visitedPlaces u) i)) = Some e ->
  toggleVisited AuthService i w =
  (Normal tt,
   mkWorld
     (withNotification (mkNotification "Failed to update status" error true) (app w))
     (calls w ++ [CallToggleVisited (uid u) i (Js.array_includes (visitedPlaces u) i)])
     (console w ++ [("Failed to update visited places", e)])).
Proof.
  intros Hu Hs. unfold_handler. rewrite Hu. simpl. rewrite Hs. reflexivity.
Qed.

Lemma toggleWishlist_rejected (i : string) (w : World) (u : User) (e : JsError) :
  user (app w) = Some u ->
  AuthService (calls w)
    (CallToggleWishlist (uid u) i (Js.array_includes (wishlist u) i)) = Some e ->
  toggleWishlist AuthService i w =
  (Normal tt,
   mkWorld
     (withNotification (mkNotification "Failed to update wishlist" error true) (app w))
     (calls w ++ [CallToggleWishlist (uid u) i (Js.array_includes (wishlist u) i)])
     (console w ++ [("Failed to update wishlist", e)])).
Proof.
  intros Hu Hs. unfold_handler. rewrite Hu. simpl. rewrite Hs. reflexivity.
Qed.

(** A rejected logout leaves [handleLogout] as the error it was rejected
    with: no cell is written and nothing is shown. *)
Lemma handleLogout_rejected (w : World) (e : JsError) :
  AuthService (calls w) CallLogout = Some e ->
  handleLogout AuthService w =
  (Throw e, mkWorld (app w) (calls w ++ [CallLogout]) (console w)).
Proof.
  intros Hs. unfold_handler. rewrite Hs. reflexivity.
Qed.

Lemma handleLogout_resolved (w : World) :
  AuthService (calls w) CallLogout = None ->
  handleLogout AuthService w =
  (Normal tt,
   mkWorld
     (withNotification (mkNotification "Logged out successfully" info true)
        (withView LOGIN (withUser None (app w))))
     (calls w ++ [CallLogout]) (console w)).
Proof.
  intros Hs. unfold_handler. rewrite Hs. reflexivity.
Qed.

(** No handler but the two that set it changes the active category, and those
    two set it to an element of [CATEGORIES]. *)
Lemma dispatch_activeCategory (e : Event) (w : World) :
  In (activeCategory (app w)) CATEGORIES ->
  In (activeCategory (app (snd (dispatch AuthService MOCK_DESTINATIONS e w))))
     CATEGORIES.
Proof.
  intros Hw. destruct e; unfold dispatch; unfold_handler;
    try (simpl; exact Hw).
  - destruct (user (app w)); [|exact Hw].
    destruct (AuthService _ _); [exact Hw|]. destruct (negb _); exact Hw.
  - destruct (user (app w)); [|exact Hw].
    destruct (AuthService _ _); [exact Hw|]. destruct (negb _); exact Hw.
  - destruct (AuthService _ _); exact Hw.
  - destruct (nth_error CATEGORIES position) as [cat|] eqn:E; [|exact Hw].
    exact (nth_error_In CATEGORIES position E).
  - simpl. left. reflexivity.
  - simpl. destruct (view (app w)); try exact Hw.
    destruct (selectedDestination (app w)); exact Hw.
Qed.

End HandlerFacts.

(** ** The handlers: what the root guarantees *)

(** C2: at a signed-in state and a collaborator that rejects every call, the
    two toggles catch the rejection (they complete normally, log it and show
    an error toast, and leave the cached user alone), whereas [handleLogout]
    completes with the error itself: the error leaves the handler, no toast
    is shown, and no cell is changed. *)
Theorem handleLogout_rejection_escapes :
  toggleVisited alwaysRejects "1" (signedIn alice) =
    (Normal tt,
     mkWorld
       (withNotification (mkNotification "Failed to update status" error true)
          (app (signedIn alice)))
       [CallToggleVisited "u1" "1" false]
       [("Failed to update visited places", "network error")])
  /\ toggleWishlist alwaysRejects "1" (signedIn alice) =
    (Normal tt,
     mkWorld
       (withNotification (mkNotification "Failed to update wishlist" error true)
          (app (signedIn alice)))
       [CallToggleWishlist "u1" "1" true]
       [("Failed to update wishlist", "network error")])
  /\ handleLogout alwaysRejects (signedIn alice) =
    (Throw "network error", mkWorld (app (signedIn alice)) [CallLogout] []).
Proof. repeat split. Qed.

(** C3: with no cached user, [toggleVisited] and [toggleWishlist] complete
    normally for every destination identifier, having only set the view to
    [LOGIN]: the log of collaborator calls, the console and every other cell,
    the notification among them, are as before. *)
Theorem toggle_without_user :
  forall (AuthService : AuthServiceT) (i : string) (w : World),
    user (app w) = None ->
    toggleVisited AuthService i w =
      (Normal tt, mkWorld (withView LOGIN (app w)) (calls w) (console w))
    /\ toggleWishlist AuthService i w =
      (Normal tt, mkWorld (withView LOGIN (app w)) (calls w) (console w)).
Proof.
  intros AuthService i w Hu. split; unfold_handler; rewrite Hu; reflexivity.
Qed.

Lemma toggle_without_user_witness :
  user (app initialWorld) = None
  /\ toggleVisited alwaysResolves "1" initialWorld =
      (Normal tt, mkWorld (withView LOGIN initialState) [] [])
  /\ toggleWishlist alwaysRejects "1" initialWorld =
      (Normal tt, mkWorld (withView LOGIN initialState) [] []).
Proof.
  split; [reflexivity|]. split.
  - apply (toggle_without_user alwaysResolves "1" initialWorld). reflexivity.
  - apply (toggle_without_user alwaysRejects "1" initialWorld). reflexivity.
Defined.

(** C7: for a cached user, [toggleWishlist] on an identifier of the wishlist
    calls the collaborator once, with [currentlyWishlisted = true], and when
    that call resolves it shows "Removed from Wishlist" of kind [info]; on an
    identifier outside the wishlist it calls with [currentlyWishlisted =
    false] and, when the call resolves, shows "Added to Wishlist" of kind
    [success].  Nothing else is changed. *)
Theorem toggleWishlist_notifications :
  forall (AuthService : AuthServiceT) (i : string) (w : World) (u : User),
    user (app w) = Some u ->
    (In i (wishlist u) ->
       calls (snd (toggleWishlist AuthService i w)) =
         (calls w ++ [CallToggleWishlist (uid u) i true])%list
       /\ (AuthService (calls w) (CallToggleWishlist (uid u) i true) = None ->
           toggleWishlist AuthService i w =
             (Normal tt,
              mkWorld
                (withNotification
                   (mkNotification "Removed from Wishlist" info true) (app w))
                (calls w ++ [CallToggleWishlist (uid u) i true]) (console w))))
    /\ (~ In i (wishlist u) ->
       calls (snd (toggleWishlist AuthService i w)) =
         (calls w ++ [CallToggleWishlist (uid u) i false])%list
       /\ (AuthService (calls w) (CallToggleWishlist (uid u) i false) = None ->
           toggleWishlist AuthService i w =
             (Normal tt,
              mkWorld
                (withNotification
                   (mkNotification "Added to Wishlist" success true) (app w))
                (calls w ++ [CallToggleWishlist (uid u) i false]) (console w)))).
Proof.
  intros AuthService i w u Hu. split; intros Hin.
  - apply array_includes_In in Hin. unfold_handler. rewrite Hu, Hin. split.
    + destruct (AuthService _ _); reflexivity.
    + intros Hs. rewrite Hs. reflexivity.
  - apply array_includes_not_In in Hin. unfold_handler. rewrite Hu, Hin. split.
    + destruct (AuthService _ _); reflexivity.
    + intros Hs. rewrite Hs. reflexivity.
Qed.

Lemma toggleWishlist_notifications_witness :
  user (app (signedIn alice)) = Some alice
  /\ In "1" (wishlist alice)
  /\ ~ In "2" (wishlist alice)
  /\ toggleWishlist alwaysResolves "1" (signedIn alice) =
       (Normal tt,
        mkWorld
          (withNotification (mkNotification "Removed from Wishlist" info true)
             (app (signedIn alice)))
          [CallToggleWishlist "u1" "1" true] [])
  /\ toggleWishlist alwaysResolves "2" (signedIn alice) =
       (Normal tt,
        mkWorld
          (withNotification (mkNotification "Added to Wishlist" success true)
             (app (signedIn alice)))
          [CallToggleWishlist "u1" "2" false] []).
Proof.
  assert (H1 : In "1" (wishlist alice)) by (left; reflexivity).
  assert (H2 : ~ In "2" (wishlist alice)).
  { intros [H|[]]. discriminate H. }
  split; [reflexivity|]. split; [exact H1|]. split; [exact H2|]. split.
  - apply (toggleWishlist_notifications alwaysResolves "1" (signedIn alice)
             alice eq_refl); [exact H1 | reflexivity].
  - apply (toggleWishlist_notifications alwaysResolves "2" (signedIn alice)
             alice eq_refl); [exact H2 | reflexivity].
Defined.

(** C8: rendering the details view with no selected destination completes
    normally, renders nothing and sets the view to [EXPLORE]; the
    notification, the collaborator log, the console and every other cell are
    untouched, and the render that follows shows the explore screen. *)
Theorem details_without_selection_redirects :
  forall (MOCK_DESTINATIONS : list Destination) (w : World),
    view (app w) = DETAILS ->
    selectedDestination (app w) = None ->
    renderContent MOCK_DESTINATIONS w =
      (Normal NothingRendered,
       mkWorld (withView EXPLORE (app w)) (calls w) (console w))
    /\ renderContent MOCK_DESTINATIONS
         (mkWorld (withView EXPLORE (app w)) (calls w) (console w)) =
      (Normal
         (ExploreScreen (searchTerm (app w)) (activeCategory (app w))
            (filteredDestinations MOCK_DESTINATIONS (searchTerm (app w))
               (activeCategory (app w)))),
       mkWorld (withView EXPLORE (app w)) (calls w) (console w)).
Proof.
  intros D w Hv Hd. split.
  - unfold_handler. rewrite Hv, Hd. reflexivity.
  - reflexivity.
Qed.

Lemma details_without_selection_redirects_witness :
  view (app (mkWorld (withView DETAILS initialState) [] [])) = DETAILS
  /\ selectedDestination (app (mkWorld (withView DETAILS initialState) [] [])) = None
  /\ renderContent [bali; swiss_alps] (mkWorld (withView DETAILS initialState) [] []) =
       (Normal NothingRendered, mkWorld (withView EXPLORE initialState) [] []).
Proof.
  split; [reflexivity|]. split; [reflexivity|].
  apply (details_without_selection_redirects [bali; swiss_alps]
           (mkWorld (withView DETAILS initialState) [] [])); reflexivity.
Defined.

(** C9: the active category starts as "All"; every event handled by the root
    takes a state whose active category is in [CATEGORIES] to such a state;
    hence after any sequence of events from the initial state, and whatever
    the collaborator answers, the active category is in [CATEGORIES]. *)
Theorem activeCategory_in_CATEGORIES :
  activeCategory initialState = "All"
  /\ (forall (AuthService : AuthServiceT) (D : list Destination)
             (e : Event) (w : World),
         In (activeCategory (app w)) CATEGORIES ->
         In (activeCategory (app (snd (dispatch AuthService D e w)))) CATEGORIES)
  /\ (forall (AuthService : AuthServiceT) (D : list Destination)
             (events : list Event),
         In (activeCategory (app (run AuthService D events initialWorld)))
            CATEGORIES).
Proof.
  split; [reflexivity|]. split.
  - intros AuthService D e w. apply dispatch_activeCategory.
  - intros AuthService D events.
    assert (H : forall w, In (activeCategory (app w)) CATEGORIES ->
                In (activeCategory (app (run AuthService D events w))) CATEGORIES).
    { induction events as [|e rest IH]; intros w Hw.
      - exact Hw.
      - simpl run. apply IH. apply dispatch_activeCategory. exact Hw. }
    apply H. left. reflexivity.
Qed.

Lemma activeCategory_in_CATEGORIES_witness :
  In (activeCategory
        (app (run alwaysRejects [bali; swiss_alps]
                [CategoryButton 7; Logout; CategoryButton 8; Render]
                initialWorld)))
     CATEGORIES.
Proof.
  apply (proj2 (proj2 activeCategory_in_CATEGORIES)).
Defined.

(** C10: [closeNotification] completes normally and sets the visibility flag
    of the notification to [false]; the message and the kind of the
    notification, every other cell, the collaborator log and the console are
    what they were, whatever the notification was. *)
Theorem closeNotification_frame :
  forall w : World,
    fst (closeNotification w) = Normal tt
    /\ isVisible (notification (app (snd (closeNotification w)))) = false
    /\ message (notification (app (snd (closeNotification w))))
       = message (notification (app w))
    /\ type (notification (app (snd (closeNotification w))))
       = type (notification (app w))
    /\ withNotification (notification (app w)) (app (snd (closeNotification w)))
       = app w
    /\ calls (snd (closeNotification w)) = calls w
    /\ console (snd (closeNotification w)) = console w.
Proof.
  intros [[v sd st ac d g u al n] cs cn]. repeat split.
Qed.

(** ** More about the search box and the category buttons *)

Section SearchFacts.

Lemma toLowerCaseChar_idempotent (c : ascii) :
  Js.toLowerCaseChar (Js.toLowerCaseChar c) = Js.toLowerCaseChar c.
Proof.
  destruct c as [b0 b1 b2 b3 b4 b5 b6 b7];
    destruct b0, b1, b2, b3, b4, b5, b6, b7; reflexivity.
Qed.

Lemma toLowerCase_idempotent (s : string) :
  Js.toLowerCase (Js.toLowerCase s) = Js.toLowerCase s.
Proof.
  induction s as [|c s IH]; simpl.
  - reflexivity.
  - rewrite toLowerCaseChar_idempotent, IH. reflexivity.
Qed.

Lemma toLowerCase_app (s t : string) :
  Js.toLowerCase (s ++ t) = Js.toLowerCase s ++ Js.toLowerCase t.
Proof.
  induction s as [|c s IH]; simpl.
  - reflexivity.
  - rewrite IH. reflexivity.
Qed.

Lemma string_app_assoc (a b c : string) : (a ++ b) ++ c = a ++ b ++ c.
Proof.
  induction a as [|x a IH]; simpl.
  - reflexivity.
  - rewrite IH. reflexivity.
Qed.

Lemma Substring_trans (a b c : string) :
  Substring a b -> Substring b c -> Substring a c.
Proof.
  intros (p & q & Eb) (p' & q' & Ec). subst b c.
  exists (p' ++ p), (q ++ q'). rewrite !string_app_assoc. reflexivity.
Qed.

Lemma Substring_app_l (t x : string) : Substring t (t ++ x).
Proof. exists "", x. reflexivity. Qed.

Lemma filter_filter_and {A : Type} (f g : A -> bool) (D : list A) :
  filter g (filter f D) = filter (fun x => (f x && g x)%bool) D.
Proof.
  induction D as [|x D IH]; simpl.
  - reflexivity.
  - destruct (f x); simpl; [destruct (g x)|]; rewrite IH; reflexivity.
Qed.

Lemma filter_same {A : Type} (f g : A -> bool) (D : list A) :
  (forall x, f x = g x) -> filter f D = filter g D.
Proof.
  intros E. induction D as [|x D IH]; simpl.
  - reflexivity.
  - rewrite E, IH. reflexivity.
Qed.

Lemma matchesSearch_narrows (t t2 : string) (d : Destination) :
  Substring (Js.toLowerCase t) (Js.toLowerCase t2) ->
  matchesSearch t2 d = true -> matchesSearch t d = true.
Proof.
  intros Hs H. apply matchesSearch_iff in H. apply matchesSearch_iff.
  destruct H as [H|H]; [left|right]; exact (Substring_trans _ _ _ Hs H).
Qed.

Lemma category_string_not_all (k : DestinationCategory) :
  ("All" =? category_string k)%string = false.
Proof. destruct k; reflexivity. Qed.

Lemma category_string_eqb (k k' : DestinationCategory) :
  (category_string k =? category_string k')%string = true <-> k = k'.
Proof.
  split.
  - destruct k, k'; simpl; intros H; try reflexivity; discriminate H.
  - intros ->. apply String.eqb_refl.
Qed.

End SearchFacts.

(** X1: the search ignores the case of the term: two terms with the same
    lowercase form give the same result, and a term gives the result of its
    own lowercase form. *)
Theorem search_ignores_case :
  forall (D : list Destination) (t t' c : string),
    Js.toLowerCase t = Js.toLowerCase t' ->
    filteredDestinations D t c = filteredDestinations D t' c
    /\ filteredDestinations D (Js.toLowerCase t) c = filteredDestinations D t' c.
Proof.
  intros D t t' c E. unfold filteredDestinations, matchesSearch.
  rewrite toLowerCase_idempotent, E. split; reflexivity.
Qed.

Lemma search_ignores_case_witness :
  Js.toLowerCase "bALi" = Js.toLowerCase "BALI"
  /\ filteredDestinations [bali; swiss_alps] "bALi" "All"
     = filteredDestinations [bali; swiss_alps] "BALI" "All".
Proof.
  split; [reflexivity|].
  apply (search_ignores_case [bali; swiss_alps] "bALi" "BALI" "All").
  reflexivity.
Defined.

(** X2: a longer term narrows the result: when the lowercase form of [t]
    occurs in that of [t2], searching for [t2] gives what searching for [t2]
    among the results of [t] gives, so every destination found for [t2] is
    found for [t]. *)
Theorem longer_term_narrows :
  forall (D : list Destination) (t t2 c : string),
    Substring (Js.toLowerCase t) (Js.toLowerCase t2) ->
    filteredDestinations D t2 c
    = filteredDestinations (filteredDestinations D t c) t2 c
    /\ incl (filteredDestinations D t2 c) (filteredDestinations D t c).
Proof.
  intros D t t2 c Hs.
  assert (E : filteredDestinations D t2 c
              = filteredDestinations (filteredDestinations D t c) t2 c).
  { unfold filteredDestinations. rewrite filter_filter_and.
    apply filter_same. intros d.
    destruct (matchesCategory c d); simpl; [|reflexivity].
    destruct (matchesSearch t2 d) eqn:E2; [|apply eq_sym, andb_false_r].
    rewrite (matchesSearch_narrows t t2 d Hs E2). reflexivity. }
  split; [exact E|].
  rewrite E. intros d Hd. unfold filteredDestinations in Hd at 1.
  apply filter_In in Hd. exact (proj1 Hd).
Qed.

Lemma longer_term_narrows_witness :
  Substring (Js.toLowerCase "Swi") (Js.toLowerCase "SWISS")
  /\ incl (filteredDestinations [bali; swiss_alps] "SWISS" "All")
          (filteredDestinations [bali; swiss_alps] "Swi" "All").
Proof.
  assert (H : Substring (Js.toLowerCase "Swi") (Js.toLowerCase "SWISS")).
  { exists "", "ss". reflexivity. }
  split; [exact H|].
  exact (proj2 (longer_term_narrows [bali; swiss_alps] "Swi" "SWISS" "All" H)).
Defined.

(** X3: the two halves of the filter compose in either order: filtering by
    the term under "All" and then by the category with an empty term, or the
    other way round, gives the result of the filter on both at once. *)
Theorem term_and_category_compose :
  forall (D : list Destination) (t c : string),
    filteredDestinations (filteredDestinations D t "All") "" c
    = filteredDestinations D t c
    /\ filteredDestinations (filteredDestinations D "" c) t "All"
       = filteredDestinations D t c.
Proof.
  intros D t c. unfold filteredDestinations.
  rewrite !filter_filter_and. split; apply filter_same; intros d;
    rewrite matchesSearch_empty;
    change (matchesCategory "All" d) with true;
    destruct (matchesCategory c d), (matchesSearch t d); reflexivity.
Qed.

(** X4: with an empty term, the button of a destination category shows
    exactly the destinations of that category, in the order of the list; the
    price plays no part. *)
Theorem category_button_selects_category :
  forall (D : list Destination) (k : DestinationCategory),
    Selects (fun d => category d = k) D
            (filteredDestinations D "" (category_string k)).
Proof.
  intros D k. apply filter_Selects. intros d.
  rewrite matchesSearch_empty, andb_true_r. unfold matchesCategory.
  rewrite (String.eqb_sym (category_string k) "All"), category_string_not_all.
  rewrite category_string_not_budget, andb_false_l, orb_false_r, orb_false_l.
  apply category_string_eqb.
Qed.

(** X5: a destination of category "History" has no button of its own: among
    the categories of [CATEGORIES] it is shown only under "All" and, when its
    price is at most 1500, under "Budget Friendly". *)
Theorem history_has_no_button :
  forall (D : list Destination) (t c : string) (d : Destination),
    In c CATEGORIES ->
    category d = History ->
    In d (filteredDestinations D t c) ->
    c = "All" \/ (c = "Budget Friendly" /\ price d <= 1500).
Proof.
  intros D t c d Hc Hk Hd. unfold filteredDestinations in Hd.
  apply filter_In in Hd. destruct Hd as [_ Hd].
  apply andb_true_iff in Hd. destruct Hd as [Hm _].
  apply matchesCategory_iff in Hm. destruct Hm as [H|[H|H]].
  - left. exact H.
  - rewrite Hk in H. subst c. simpl in Hc.
    repeat (destruct Hc as [Hc|Hc]; [discriminate Hc|]). contradiction.
  - right. exact H.
Qed.

Lemma history_has_no_button_witness :
  In "Budget Friendly" CATEGORIES
  /\ category colosseum = History
  /\ In colosseum
        (filteredDestinations [bali; colosseum] "rome" "Budget Friendly")
  /\ ("Budget Friendly" = "All"
      \/ ("Budget Friendly" = "Budget Friendly" /\ price colosseum <= 1500)).
Proof.
  assert (Hc : In "Budget Friendly" CATEGORIES).
  { do 7 right. left. reflexivity. }
  assert (Hd : In colosseum
                 (filteredDestinations [bali; colosseum] "rome" "Budget Friendly")).
  { left. reflexivity. }
  split; [exact Hc|]. split; [reflexivity|]. split; [exact Hd|].
  exact (history_has_no_button [bali; colosseum] "rome" "Budget Friendly"
           colosseum Hc eq_refl Hd).
Defined.

(** ** More about the handlers *)

(** Splits a handler on everything it branches on. *)
Ltac handler_cases :=
  unfold dispatch; unfold_handler; cbv beta;
  repeat (match goal with
          | |- context [match ?x with _ => _ end] =>
              lazymatch x with
              | context [match _ with _ => _ end] => fail
              | _ => destruct x eqn:?
              end
          end; cbv beta iota).

Section RunFacts.

Variable AuthService : AuthServiceT.
Variable MOCK_DESTINATIONS : list Destination.

Local Abbreviation dispatch' := (dispatch AuthService MOCK_DESTINATIONS).
Local Abbreviation run' := (run AuthService MOCK_DESTINATIONS).

(** A property kept by the handler of every allowed event is kept by a run
    of allowed events. *)
Lemma run_invariant (P : World -> Prop) (allowed : Event -> bool) :
  (forall e w, allowed e = true -> P w -> P (snd (dispatch' e w))) ->
  forall es w, Forall (fun e => allowed e = true) es -> P w -> P (run' es w).
Proof.
  intros step es. induction es as [|e es IH]; intros w Hes Hw.
  - exact Hw.
  - inversion Hes; subst. simpl. apply IH; [assumption|].
    apply step; assumption.
Qed.

Lemma run_invariant_all (P : World -> Prop) :
  (forall e w, P w -> P (snd (dispatch' e w))) ->
  forall es w, P w -> P (run' es w).
Proof.
  intros step es. induction es as [|e es IH]; intros w Hw.
  - exact Hw.
  - simpl. apply IH, step, Hw.
Qed.

Lemma run_app (es1 es2 : list Event) (w : World) :
  run' (es1 ++ es2) w = run' es2 (run' es1 w).
Proof.
  revert w. induction es1 as [|e es1 IH]; intros w; simpl.
  - reflexivity.
  - apply IH.
Qed.

Lemma dispatch_calls (e : Event) (w : World) :
  exists l, calls (snd (dispatch' e w)) = (calls w ++ l)%list
            /\ (length l <= 1)%nat.
Proof.
  destruct e; handler_cases; simpl;
    first [ exists []; rewrite app_nil_r; split; [reflexivity | simpl; lia]
          | eexists [_]; split; [reflexivity | simpl; lia] ].
Qed.

Lemma dispatch_selectedDestination (e : Event) (w : World) :
  selectedDestination (app w) <> None ->
  selectedDestination (app (snd (dispatch' e w))) <> None.
Proof.
  intros Hw. destruct e; handler_cases; simpl;
    first [exact Hw | discriminate | congruence].
Qed.

Lemma dispatch_authLoading (e : Event) (w : World) :
  authLoading (app w) = false ->
  authLoading (app (snd (dispatch' e w))) = false.
Proof.
  intros Hw. destruct e; handler_cases; simpl; first [exact Hw | reflexivity].
Qed.

Lemma dispatch_booking (e : Event) (w : World) :
  editsBooking e = false ->
  searchDate (app (snd (dispatch' e w))) = searchDate (app w)
  /\ searchGuests (app (snd (dispatch' e w))) = searchGuests (app w).
Proof.
  intros He. destruct e; try discriminate He; handler_cases; simpl;
    split; reflexivity.
Qed.

Lemma dispatch_signed_out (e : Event) (w : World) :
  signsIn e = false ->
  user (app w) = None /\ Forall (fun c => c = CallLogout) (calls w) ->
  user (app (snd (dispatch' e w))) = None
  /\ Forall (fun c => c = CallLogout) (calls (snd (dispatch' e w))).
Proof.
  intros He [Hu Hc].
  destruct e as [[u|] | | | | | | | | | | | | | | | | | ];
    try discriminate He; unfold dispatch; unfold_handler; cbv beta;
    rewrite ?Hu; handler_cases; simpl;
    (split;
     [ first [exact Hu | reflexivity | congruence]
     | first [ exact Hc
             | apply Forall_app; split; [exact Hc | repeat constructor] ] ]).
Qed.

End RunFacts.

(** ** More guarantees of the handlers *)

(** X6: for a cached user and a call that resolves, [toggleVisited] on a
    place already visited shows nothing at all (only the call is logged),
    whereas on a place not yet visited it shows "Added to your Travel Log!"
    of kind [success]. *)
Theorem toggleVisited_notifications :
  forall (AuthService : AuthServiceT) (i : string) (w : World) (u : User),
    user (app w) = Some u ->
    AuthService (calls w)
      (CallToggleVisited (uid u) i (Js.array_includes (visitedPlaces u) i))
      = None ->
    (In i (visitedPlaces u) ->
       toggleVisited AuthService i w =
         (Normal tt,
          mkWorld (app w) (calls w ++ [CallToggleVisited (uid u) i true])
            (console w)))
    /\ (~ In i (visitedPlaces u) ->
       toggleVisited AuthService i w =
         (Normal tt,
          mkWorld
            (withNotification
               (mkNotification "Added to your Travel Log!" success true)
               (app w))
            (calls w ++ [CallToggleVisited (uid u) i false]) (console w))).
Proof.
  intros AuthService i w u Hu Hs. split; intros Hin.
  - apply array_includes_In in Hin. rewrite Hin in Hs.
    unfold_handler. rewrite Hu, Hin, Hs. destruct w; reflexivity.
  - apply array_includes_not_In in Hin. rewrite Hin in Hs.
    unfold_handler. rewrite Hu, Hin, Hs. reflexivity.
Qed.

Lemma toggleVisited_notifications_witness :
  user (app (signedIn bob)) = Some bob
  /\ In "1" (visitedPlaces bob)
  /\ toggleVisited alwaysResolves "1" (signedIn bob) =
       (Normal tt,
        mkWorld (app (signedIn bob)) [CallToggleVisited "u2" "1" true] []).
Proof.
  assert (H1 : In "1" (visitedPlaces bob)) by (left; reflexivity).
  split; [reflexivity|]. split; [exact H1|].
  exact (proj1 (toggleVisited_notifications alwaysResolves "1" (signedIn bob)
                  bob eq_refl eq_refl) H1).
Defined.

(** X7: the cached user is written by three events only: the session
    listener, a successful sign-in and the logout.  The handler of any other
    event, the two toggles included, leaves it as it was, whatever the
    collaborator answers. *)
Theorem user_written_by_session_only :
  forall (AuthService : AuthServiceT) (D : list Destination)
         (e : Event) (w : World),
    writesUser e = false ->
    user (app (snd (dispatch AuthService D e w))) = user (app w).
Proof.
  intros AuthService D e w He.
  destruct e; try discriminate He; handler_cases; simpl; congruence.
Qed.

Lemma user_written_by_session_only_witness :
  writesUser (ToggleWishlist "1") = false
  /\ user (app (snd (dispatch alwaysResolves [bali] (ToggleWishlist "1")
                       (signedIn alice))))
     = Some alice.
Proof.
  split; [reflexivity|].
  exact (user_written_by_session_only alwaysResolves [bali]
           (ToggleWishlist "1") (signedIn alice) eq_refl).
Defined.

(** X8: the handler of an event completes normally, with one exception: the
    logout, when the collaborator rejects it, completes with the error it
    was rejected with. *)
Theorem only_logout_throws :
  forall (AuthService : AuthServiceT) (D : list Destination)
         (e : Event) (w : World),
    fst (dispatch AuthService D e w) = Normal tt
    \/ exists x : JsError,
         e = Logout
         /\ AuthService (calls w) CallLogout = Some x
         /\ fst (dispatch AuthService D e w) = Throw x.
Proof.
  intros AuthService D e w.
  destruct e; try (left; handler_cases; reflexivity).
  unfold dispatch. unfold_handler.
  destruct (AuthService (calls w) CallLogout) as [x|] eqn:E.
  - right. exists x. repeat split.
  - left. reflexivity.
Qed.

(** X9: when the logout resolves, a sign-in followed by a logout ends with no
    cached user, on the login view, with the toast "Logged out successfully";
    the toggles clicked after it send nothing to the collaborator, whose log
    has grown by the logout alone. *)
Theorem logout_then_toggles_send_nothing :
  forall (AuthService : AuthServiceT) (D : list Destination)
         (u : User) (i j : string) (w : World),
    AuthService (calls w) CallLogout = None ->
    run AuthService D [AuthSuccess u; Logout; ToggleWishlist i; ToggleVisited j] w
    = mkWorld
        (withNotification (mkNotification "Logged out successfully" info true)
           (withView LOGIN (withUser None (app w))))
        (calls w ++ [CallLogout]) (console w).
Proof.
  intros AuthService D u i j w Hs. unfold run, dispatch. unfold_handler.
  simpl. rewrite Hs. reflexivity.
Qed.

Lemma logout_then_toggles_send_nothing_witness :
  alwaysResolves (calls initialWorld) CallLogout = None
  /\ calls (run alwaysResolves [bali]
              [AuthSuccess alice; Logout; ToggleWishlist "1"; ToggleVisited "2"]
              initialWorld)
     = [CallLogout].
Proof.
  split; [reflexivity|].
  rewrite (logout_then_toggles_send_nothing alwaysResolves [bali] alice
             "1" "2" initialWorld eq_refl).
  reflexivity.
Defined.

(** X10: rendering never throws and touches neither the collaborator nor the
    console; of the state it can change the view only, and only by the
    redirect from a details view without selection to the explore view; a
    second render right after changes nothing. *)
Theorem render_changes_only_view :
  forall (D : list Destination) (w : World),
    (exists screen, fst (renderContent D w) = Normal screen)
    /\ calls (snd (renderContent D w)) = calls w
    /\ console (snd (renderContent D w)) = console w
    /\ withView (view (app w)) (app (snd (renderContent D w))) = app w
    /\ (snd (renderContent D w) = w
        \/ (view (app w) = DETAILS
            /\ selectedDestination (app w) = None
            /\ view (app (snd (renderContent D w))) = EXPLORE))
    /\ snd (renderContent D (snd (renderContent D w)))
       = snd (renderContent D w).
Proof.
  intros D [[v sd st ac dt g u al n] cs cn]. unfold_handler. simpl.
  destruct v; try destruct sd; simpl;
    (split; [eexists; reflexivity|]);
    repeat (split; [reflexivity|]);
    (split; [|reflexivity]);
    first [left; reflexivity | right; repeat split].
Qed.

(** X11: when rendering shows the details screen, the view is [DETAILS], the
    destination shown is the selected one, the screen gets the cached user
    and the date and guests typed on the home screen, and the two flags say
    whether the identifier of the destination is among the visited places
    and the wishlist of the cached user (both false without a user). *)
Theorem details_screen_reflects_state :
  forall (D : list Destination) (w : World) (d : Destination)
         (v wl : bool) (u : option User) (dt g : string),
    fst (renderContent D w) = Normal (DestinationDetailsScreen d v wl u dt g) ->
    view (app w) = DETAILS
    /\ selectedDestination (app w) = Some d
    /\ u = user (app w)
    /\ dt = searchDate (app w)
    /\ g = searchGuests (app w)
    /\ (v = true <->
        exists x, user (app w) = Some x /\ In (id d) (visitedPlaces x))
    /\ (wl = true <->
        exists x, user (app w) = Some x /\ In (id d) (wishlist x)).
Proof.
  intros D w d v wl u dt g. unfold_handler.
  destruct (view (app w)) eqn:Hv; try discriminate.
  destruct (selectedDestination (app w)) as [d'|] eqn:Hd; [|discriminate].
  simpl. intros H. injection H as -> <- <- <- <- <-.
  repeat (split; [reflexivity|]).
  unfold userHas. destruct (user (app w)) as [x|]; split; split.
  - intros H. exists x. split; [reflexivity | apply array_includes_In, H].
  - intros (y & E & Hin). injection E as <-. apply array_includes_In, Hin.
  - intros H. exists x. split; [reflexivity | apply array_includes_In, H].
  - intros (y & E & Hin). injection E as <-. apply array_includes_In, Hin.
  - discriminate.
  - intros (y & E & _). discriminate E.
  - discriminate.
  - intros (y & E & _). discriminate E.
Qed.

Lemma details_screen_reflects_state_witness :
  fst (renderContent [bali]
         (snd (handleDestinationClick bali (signedIn alice))))
    = Normal (DestinationDetailsScreen bali false true (Some alice) "" "")
  /\ (true = true <->
      exists x,
        user (app (snd (handleDestinationClick bali (signedIn alice)))) = Some x
        /\ In (id bali) (wishlist x)).
Proof.
  split; [reflexivity|].
  exact (proj2 (proj2 (proj2 (proj2 (proj2 (proj2
           (details_screen_reflects_state [bali]
              (snd (handleDestinationClick bali (signedIn alice)))
              bali false true (Some alice) "" "" eq_refl))))))).
Defined.

(** ** Guarantees over sequences of events *)

Section TraceFacts.

Variable AuthService : AuthServiceT.
Variable MOCK_DESTINATIONS : list Destination.

Local Abbreviation dispatch' := (dispatch AuthService MOCK_DESTINATIONS).
Local Abbreviation run' := (run AuthService MOCK_DESTINATIONS).

Lemma dispatch_no_error_toast (e : Event) (w : World) :
  (forall h c, AuthService h c = None) ->
  asksErrorToast e = false ->
  type (notification (app w)) <> error ->
  type (notification (app (snd (dispatch' e w)))) <> error
  /\ console (snd (dispatch' e w)) = console w.
Proof.
  intros Hs He Hw.
  destruct e; try (destruct kind; try discriminate He);
    unfold dispatch; unfold_handler; cbv beta; rewrite ?Hs;
    handler_cases; simpl;
    try match goal with
        | H : AuthService _ _ = Some _ |- _ => rewrite Hs in H; discriminate H
        end;
    (split; [first [exact Hw | discriminate] | reflexivity]).
Qed.

Lemma run_booking (es : list Event) (w : World) :
  Forall (fun e => editsBooking e = false) es ->
  searchDate (app (run' es w)) = searchDate (app w)
  /\ searchGuests (app (run' es w)) = searchGuests (app w).
Proof.
  intros Hes.
  apply (run_invariant AuthService MOCK_DESTINATIONS
           (fun w' => searchDate (app w') = searchDate (app w)
                      /\ searchGuests (app w') = searchGuests (app w))
           (fun e => negb (editsBooking e))).
  - intros e w' He [H1 H2]. apply negb_true_iff in He.
    destruct (dispatch_booking AuthService MOCK_DESTINATIONS e w' He) as [E1 E2].
    rewrite E1, E2. split; assumption.
  - eapply Forall_impl; [|exact Hes]. intros e He. simpl. rewrite He. reflexivity.
  - split; reflexivity.
Qed.

End TraceFacts.

(** X12: what is typed in the date and guests inputs of the home screen
    reaches the details screen: after the two inputs are set, whatever events
    follow that do not edit them, a click on a destination makes the next
    render show the details of that destination with that date and those
    guests, and this render changes nothing. *)
Theorem booking_prefill_reaches_details :
  forall (AuthService : AuthServiceT) (D : list Destination)
         (x g : string) (es : list Event) (d : Destination) (w : World),
    Forall (fun e => editsBooking e = false) es ->
    exists (v wl : bool) (u : option User),
      renderContent D
        (run AuthService D
           (TypeSearchDate x :: TypeSearchGuests g :: es ++ [DestinationClick d])
           w)
      = (Normal (DestinationDetailsScreen d v wl u x g),
         run AuthService D
           (TypeSearchDate x :: TypeSearchGuests g :: es ++ [DestinationClick d])
           w).
Proof.
  intros AuthService D x g es d w Hes.
  change (TypeSearchDate x :: TypeSearchGuests g :: es ++ [DestinationClick d])
    with ([TypeSearchDate x; TypeSearchGuests g] ++ es
          ++ [DestinationClick d])%list.
  rewrite !run_app.
  set (w0 := run AuthService D [TypeSearchDate x; TypeSearchGuests g] w).
  destruct (run_booking AuthService D es w0 Hes) as [E1 E2].
  set (w1 := run AuthService D es w0) in *.
  change (searchDate (app w0)) with x in E1.
  change (searchGuests (app w0)) with g in E2.
  simpl run. unfold dispatch. unfold_handler. simpl.
  rewrite E1, E2. do 3 eexists. reflexivity.
Qed.

Lemma booking_prefill_reaches_details_witness :
  Forall (fun e => editsBooking e = false) [HomeSearch; CategoryButton 1]
  /\ fst (renderContent [bali]
            (run alwaysResolves [bali]
               (TypeSearchDate "2026-01-05" :: TypeSearchGuests "2"
                  :: [HomeSearch; CategoryButton 1] ++ [DestinationClick bali])
               initialWorld))
     = Normal (DestinationDetailsScreen bali false false None "2026-01-05" "2").
Proof.
  assert (H : Forall (fun e => editsBooking e = false)
                [HomeSearch; CategoryButton 1]).
  { repeat constructor. }
  split; [exact H|].
  destruct (booking_prefill_reaches_details alwaysResolves [bali]
              "2026-01-05" "2" [HomeSearch; CategoryButton 1] bali
              initialWorld H) as (v & wl & u & E).
  rewrite E. simpl fst. simpl in E. injection E as <- <- <-. reflexivity.
Defined.

(** X13: no toggle reaches the collaborator before somebody signs in: from
    the initial state, after any events other than a sign-in and a session
    that carries a user, the only calls in the log are logouts and the cached
    user is still absent. *)
Theorem no_toggle_call_before_sign_in :
  forall (AuthService : AuthServiceT) (D : list Destination) (es : list Event),
    Forall (fun e => signsIn e = false) es ->
    user (app (run AuthService D es initialWorld)) = None
    /\ Forall (fun c => c = CallLogout)
              (calls (run AuthService D es initialWorld)).
Proof.
  intros AuthService D es Hes.
  apply (run_invariant AuthService D
           (fun w => user (app w) = None
                     /\ Forall (fun c => c = CallLogout) (calls w))
           (fun e => negb (signsIn e))).
  - intros e w He. apply negb_true_iff in He.
    apply dispatch_signed_out. exact He.
  - eapply Forall_impl; [|exact Hes]. intros e He. simpl. rewrite He. reflexivity.
  - split; [reflexivity | constructor].
Qed.

Lemma no_toggle_call_before_sign_in_witness :
  Forall (fun e => signsIn e = false)
    [ToggleWishlist "1"; Logout; SessionChanged None; ToggleVisited "2"]
  /\ Forall (fun c => c = CallLogout)
       (calls (run alwaysResolves [bali]
                 [ToggleWishlist "1"; Logout; SessionChanged None;
                  ToggleVisited "2"]
                 initialWorld)).
Proof.
  assert (H : Forall (fun e => signsIn e = false)
                [ToggleWishlist "1"; Logout; SessionChanged None;
                 ToggleVisited "2"]).
  { repeat constructor. }
  split; [exact H|].
  exact (proj2 (no_toggle_call_before_sign_in alwaysResolves [bali] _ H)).
Defined.

(** X14: a selection is never cleared: once a destination is selected, it
    stays selected after any events, so no later render takes the redirect:
    rendering then leaves the state as it is. *)
Theorem selection_is_never_cleared :
  forall (AuthService : AuthServiceT) (D : list Destination)
         (es : list Event) (w : World),
    selectedDestination (app w) <> None ->
    selectedDestination (app (run AuthService D es w)) <> None
    /\ snd (renderContent D (run AuthService D es w)) = run AuthService D es w.
Proof.
  intros AuthService D es w Hw.
  assert (H : selectedDestination (app (run AuthService D es w)) <> None).
  { apply (run_invariant_all AuthService D
             (fun w' => selectedDestination (app w') <> None)); [|exact Hw].
    intros e w'. apply dispatch_selectedDestination. }
  split; [exact H|].
  unfold_handler. destruct (view (app (run AuthService D es w)));
    try reflexivity.
  destruct (selectedDestination (app (run AuthService D es w)));
    [reflexivity | contradiction].
Qed.

Lemma selection_is_never_cleared_witness :
  selectedDestination (app (snd (handleDestinationClick bali initialWorld)))
    <> None
  /\ selectedDestination
       (app (run alwaysRejects [bali]
               [Logout; Navigate HOME; ResetFilters; Navigate DETAILS; Render]
               (snd (handleDestinationClick bali initialWorld))))
     <> None.
Proof.
  assert (H : selectedDestination
                (app (snd (handleDestinationClick bali initialWorld))) <> None).
  { discriminate. }
  split; [exact H|].
  exact (proj1 (selection_is_never_cleared alwaysRejects [bali]
                  [Logout; Navigate HOME; ResetFilters; Navigate DETAILS; Render]
                  (snd (handleDestinationClick bali initialWorld)) H)).
Defined.

(** X15: once the session listener has fired, the loading flag is false and
    no later event sets it again. *)
Theorem loading_ends_with_first_session :
  forall (AuthService : AuthServiceT) (D : list Destination)
         (u : option User) (es : list Event) (w : World),
    authLoading (app (run AuthService D (SessionChanged u :: es) w)) = false.
Proof.
  intros AuthService D u es w. simpl run.
  apply (run_invariant_all AuthService D
           (fun w' => authLoading (app w') = false)).
  - intros e w'. apply dispatch_authLoading.
  - reflexivity.
Qed.

(** X16: the log of collaborator calls only grows, by at most one call per
    event: after any events it is the log before them followed by no more
    calls than there were events. *)
Theorem call_log_is_append_only :
  forall (AuthService : AuthServiceT) (D : list Destination)
         (es : list Event) (w : World),
    exists l : list AuthCall,
      calls (run AuthService D es w) = (calls w ++ l)%list
      /\ (length l <= length es)%nat.
Proof.
  intros AuthService D es. induction es as [|e es IH]; intros w.
  - exists []. rewrite app_nil_r. split; [reflexivity | simpl; lia].
  - simpl run.
    destruct (dispatch_calls AuthService D e w) as (l1 & E1 & L1).
    destruct (IH (snd (dispatch AuthService D e w))) as (l2 & E2 & L2).
    exists (l1 ++ l2)%list. rewrite E2, E1, <- app_assoc.
    split; [reflexivity|]. rewrite length_app. simpl. lia.
Qed.

(** X17: the root shows an error toast of its own only after a rejection:
    with a collaborator that never rejects, and no child asking for a toast
    of kind [error], a notification that is not an error stays so through any
    events, and nothing is written to the console. *)
Theorem error_toast_needs_rejection :
  forall (AuthService : AuthServiceT) (D : list Destination)
         (es : list Event) (w : World),
    (forall h c, AuthService h c = None) ->
    Forall (fun e => asksErrorToast e = false) es ->
    type (notification (app w)) <> error ->
    type (notification (app (run AuthService D es w))) <> error
    /\ console (run AuthService D es w) = console w.
Proof.
  intros AuthService D es w Hs Hes Hw.
  apply (run_invariant AuthService D
           (fun w' => type (notification (app w')) <> error
                      /\ console w' = console w)
           (fun e => negb (asksErrorToast e))).
  - intros e w' He [H1 H2]. apply negb_true_iff in He.
    destruct (dispatch_no_error_toast AuthService D e w' Hs He H1) as [E1 E2].
    split; [exact E1 | congruence].
  - eapply Forall_impl; [|exact Hes]. intros e He. simpl. rewrite He. reflexivity.
  - split; [exact Hw | reflexivity].
Qed.

Lemma error_toast_needs_rejection_witness :
  (forall h c, alwaysResolves h c = None)
  /\ Forall (fun e => asksErrorToast e = false)
       [AuthSuccess alice; ToggleWishlist "1"; ToggleVisited "1"; Logout]
  /\ type (notification (app initialWorld)) <> error
  /\ console (run alwaysResolves [bali]
                [AuthSuccess alice; ToggleWishlist "1"; ToggleVisited "1"; Logout]
                initialWorld)
     = console initialWorld.
Proof.
  assert (H1 : forall h c, alwaysResolves h c = None) by reflexivity.
  assert (H2 : Forall (fun e => asksErrorToast e = false)
                 [AuthSuccess alice; ToggleWishlist "1"; ToggleVisited "1";
                  Logout]).
  { repeat constructor. }
  assert (H3 : type (notification (app initialWorld)) <> error).
  { discriminate. }
  split; [exact H1|]. split; [exact H2|]. split; [exact H3|].
  exact (proj2 (error_toast_needs_rejection alwaysResolves [bali] _
                  initialWorld H1 H2 H3)).
Defined.

(** X18: the flag a toggle sends is read from the cached user at the click.
    Two clicks on the wishlist toggle with no session update between them
    send the same call twice; when the session listener delivers a user
    between the two clicks, the second call carries the identifier and the
    wishlist membership of that user. *)
Theorem toggle_flag_follows_cached_user :
  forall (AuthService : AuthServiceT) (D : list Destination)
         (i : string) (w : World) (u u' : User),
    user (app w) = Some u ->
    calls (run AuthService D [ToggleWishlist i; ToggleWishlist i] w)
    = (calls w
       ++ [CallToggleWishlist (uid u) i (Js.array_includes (wishlist u) i);
           CallToggleWishlist (uid u) i (Js.array_includes (wishlist u) i)])%list
    /\ calls (run AuthService D
                [ToggleWishlist i; SessionChanged (Some u'); ToggleWishlist i] w)
       = (calls w
          ++ [CallToggleWishlist (uid u) i (Js.array_includes (wishlist u) i);
              CallToggleWishlist (uid u') i
                (Js.array_includes (wishlist u') i)])%list.
Proof.
  intros AuthService D i w u u' Hu.
  assert (E1 : forall w0 x, user (app w0) = Some x ->
            user (app (snd (toggleWishlist AuthService i w0))) = Some x
            /\ calls (snd (toggleWishlist AuthService i w0))
               = (calls w0
                  ++ [CallToggleWishlist (uid x) i
                        (Js.array_includes (wishlist x) i)])%list).
  { intros w0 x Hx. unfold_handler. rewrite Hx.
    destruct (AuthService _ _); [|destruct (negb _)]; simpl; split;
      first [exact Hx | reflexivity]. }
  split; simpl run; unfold dispatch.
  - destruct (E1 w u Hu) as [U1 C1].
    destruct (E1 _ u U1) as [_ C2].
    rewrite C2, C1, <- app_assoc. reflexivity.
  - destruct (E1 w u Hu) as [_ C1].
    set (w1 := snd (toggleWishlist AuthService i w)) in *.
    assert (U2 : user (app (snd (onAuthChanged (Some u') w1))) = Some u')
      by reflexivity.
    destruct (E1 _ u' U2) as [_ C2].
    change (snd (onAuthChanged (Some u') w1))
      with (mkWorld (withAuthLoading false (withUser (Some u') (app w1)))
              (calls w1) (console w1)) in C2.
    rewrite C2. simpl calls. rewrite C1, <- app_assoc. reflexivity.
Qed.

Lemma toggle_flag_follows_cached_user_witness :
  user (app (signedIn alice)) = Some alice
  /\ calls (run alwaysResolves [bali]
              [ToggleWishlist "1"; ToggleWishlist "1"] (signedIn alice))
     = [CallToggleWishlist "u1" "1" true; CallToggleWishlist "u1" "1" true].
Proof.
  split; [reflexivity|].
  exact (proj1 (toggle_flag_follows_cached_user alwaysResolves [bali] "1"
                  (signedIn alice) alice bob eq_refl)).
Defined.

(** X19: on the explore view, "Reset Filters" brings every destination back:
    the render that follows it shows the whole list, with an empty term and
    the category "All". *)
Theorem reset_filters_shows_everything :
  forall (AuthService : AuthServiceT) (D : list Destination) (w : World),
    view (app w) = EXPLORE ->
    fst (renderContent D (run AuthService D [ResetFilters] w))
    = Normal (ExploreScreen "" "All" D).
Proof.
  intros AuthService D w Hv. simpl run. unfold dispatch. unfold_handler.
  simpl. rewrite Hv. unfold filteredDestinations.
  rewrite filter_all; [reflexivity|].
  intros d. rewrite matchesSearch_empty. reflexivity.
Qed.

Lemma reset_filters_shows_everything_witness :
  view (app (run alwaysResolves [bali; swiss_alps]
               [HomeSearch; TypeSearchTerm "zzz"; CategoryButton 2]
               initialWorld)) = EXPLORE
  /\ fst (renderContent [bali; swiss_alps]
            (run alwaysResolves [bali; swiss_alps] [ResetFilters]
               (run alwaysResolves [bali; swiss_alps]
                  [HomeSearch; TypeSearchTerm "zzz"; CategoryButton 2]
                  initialWorld)))
     = Normal (ExploreScreen "" "All" [bali; swiss_alps]).
Proof.
  split; [reflexivity|].
  exact (reset_filters_shows_everything alwaysResolves [bali; swiss_alps]
           (run alwaysResolves [bali; swiss_alps]
              [HomeSearch; TypeSearchTerm "zzz"; CategoryButton 2]
              initialWorld) eq_refl).
Defined.
